(** * LM Studio provider of Timesketch: a shallow embedding

    Source: [timesketch/lib/llms/providers/lmstudio.py].

    The provider is a thin HTTP wrapper: its constructor reads three keys of a
    configuration [dict], and [generate] builds one request, posts it, checks
    the status of the response and hands back the body, as text or as decoded
    JSON.  Python objects are modelled as records, [dict]s as [gmap]s, and the
    effects of [generate] (the request put on the wire, the log record, the
    exception raised) by a state-and-exception monad over an explicit world. *)

From Stdlib Require Import ZArith String Ascii List.
From stdpp Require Import base option strings gmap list.

#[local] Set Warnings "-register-all".
Local Open Scope string_scope.
Local Open Scope list_scope.
Local Open Scope Z_scope.

(** ** Python values *)

(** The values the provider handles in its configuration and in its payload:
    [None] and [str] (the docstring of [__init__] lists string keys, and
    [dict.get] yields [None] for a key that is not there). *)
Inductive value : Type :=
| VNone
| VStr (s : string).

(** Python truthiness, as [if x:] and [if not x:] test it. *)
Definition truthy (v : value) : bool :=
  match v with
  | VNone => false
  | VStr EmptyString => false
  | VStr (String _ _) => true
  end.

(** [d.get(k)]: the value under [k], [None] when [k] is not a key. *)
Definition dict_get (d : gmap string value) (k : string) : value :=
  default VNone (d !! k).

(** JSON documents, as [json.loads] produces them. *)
Inductive json : Type :=
| JNull
| JBool (b : bool)
| JNum (n : Z)
| JStr (s : string)
| JArr (l : list json)
| JObj (o : list (string * json)).

(** ** HTTP messages (the [requests] library) *)

Inductive http_method : Type := GET | POST | PUT | PATCH | DELETE.

Record Request : Type := mkRequest {
  rq_method : http_method;
  rq_url : string;
  rq_json : gmap string value;
  rq_headers : gmap string string;
  rq_timeout : Z
}.

Record Response : Type := mkResponse {
  status_code : Z;
  text : string
}.

(** ** Exceptions *)

(** Instances of Python's [Exception], the ones an [except Exception]
    clause catches.  [ValueError] carries its [__cause__], which
    [raise ... from e] sets; [HTTPError] is the one
    [Response.raise_for_status] raises and carries the response;
    [OtherError] stands for every other class, by its name. *)
Inductive exn : Type :=
| ValueError (msg : string) (cause : option exn)
| AttributeError (msg : string)
| HTTPError (r : Response)
| OtherError (cls : string) (msg : string).

(** ** Strings *)

(** Whether the character [c] occurs in [chars]. *)
Fixpoint char_in (c : ascii) (chars : string) : bool :=
  match chars with
  | EmptyString => false
  | String d chars' => if Ascii.eqb c d then true else char_in c chars'
  end.

(** [s.rstrip(chars)]: [s] without its longest suffix made of characters
    of [chars]. *)
Fixpoint rstrip (chars : string) (s : string) : string :=
  match s with
  | EmptyString => EmptyString
  | String c s' =>
      match rstrip chars s' with
      | EmptyString => if char_in c chars then EmptyString else String c EmptyString
      | r => String c r
      end
  end.

(** [str(v)], as an f-string formats [v]. *)
Definition py_str (v : value) : string :=
  match v with
  | VNone => "None"
  | VStr s => s
  end.

(** ** Effects: state and exceptions *)

(** A computation over a store [S] ends with a result or with a raised
    exception; what it wrote to the store up to then stays written. *)
Definition M (S A : Type) : Type := S -> (exn + A) * S.

#[global] Instance M_ret {S} : MRet (M S) := fun A a s => (inr a, s).

#[global] Instance M_bind {S} : MBind (M S) := fun A B k m s =>
  match m s with
  | (inl e, s') => (inl e, s')
  | (inr a, s') => k a s'
  end.

#[global] Instance M_fmap {S} : FMap (M S) := fun A B f m s =>
  match m s with
  | (inl e, s') => (inl e, s')
  | (inr a, s') => (inr (f a), s')
  end.

(** [raise e] *)
Definition raise {S A} (e : exn) : M S A := fun s => (inl e, s).

(** [try: m except Exception as e: h e] *)
Definition try_except {S A} (m : M S A) (h : exn -> M S A) : M S A := fun s =>
  match m s with
  | (inl e, s') => h e s'
  | (inr a, s') => (inr a, s')
  end.

Definition gets {S A} (f : S -> A) : M S A := fun s => (inr (f s), s).

Definition modify {S} (f : S -> S) : M S unit := fun s => (inr tt, f s).

(** ** Logging *)

Inductive log_level : Type := DEBUG | INFO | WARNING | ERROR | CRITICAL.

(** A record handed to the [logging] module: [Logger.exception] logs at
    level [ERROR] and attaches the exception being handled. *)
Record LogRecord : Type := mkLogRecord {
  lr_name : string;
  lr_level : log_level;
  lr_msg : string;
  lr_args : list exn;
  lr_exc_info : bool
}.

(** ** The provider object *)

(** What [generate] returns: [resp.text] or [resp.json()]. *)
Inductive result : Type :=
| Text (s : string)
| Structured (j : json).

(** Truthiness of an [Optional[dict]]: [None] and the empty [dict] are
    falsy. *)
Definition dict_truthy {V} (d : option (gmap string V)) : bool :=
  match d with
  | None => false
  | Some m => negb (bool_decide (m = ∅))
  end.

Module LMStudioProvider.

Definition NAME : string := "lmstudio".

(** The instance attributes. *)
Record t : Type := mk {
  config : gmap string value;
  _server_url : value;
  _model : value;
  _api_key : value
}.

(** Modelled from the spec: [interface.LLMProvider.__init__], the
    constructor of the base class, which is not part of this file; the
    provider is constructible from a configuration mapping, and the base
    constructor keeps that mapping as [self.config]. *)
Definition super_init (config : gmap string value) : gmap string value :=
  config.

(** [LMStudioProvider.__init__]: the three attributes are read with
    [dict.get], then a falsy [server_url] is refused. *)
Definition __init__ (config : gmap string value) : exn + t :=
  let self_config := super_init config in
  let server_url := dict_get self_config "server_url" in
  let model := dict_get self_config "model" in
  let api_key := dict_get self_config "api_key" in
  if negb (truthy server_url)
  then inl (ValueError "LMStudio provider requires 'server_url' in config" None)
  else inr (mk self_config server_url model api_key).

(** The world [generate] runs in: the provider object it is a method of,
    the requests put on the wire so far and the records logged so far. *)
Record World : Type := mkWorld {
  self : t;
  sent : list Request;
  log : list LogRecord
}.

Definition logger_name : string := "timesketch.llm.lmstudio".

(** [logger.exception(msg, e)] *)
Definition logger_exception (msg : string) (e : exn) : M World unit :=
  modify (fun w =>
    mkWorld (self w) (sent w)
            (log w ++ [mkLogRecord logger_name ERROR msg [e] true])).

(** [Response.raise_for_status] of the [requests] library: an [HTTPError]
    for a client error (4xx) and for a server error (5xx), nothing for any
    other status. *)
Definition raise_for_status (resp : Response) : M World unit :=
  if (400 <=? status_code resp) && (status_code resp <? 500)
  then raise (HTTPError resp)
  else if (500 <=? status_code resp) && (status_code resp <? 600)
  then raise (HTTPError resp)
  else mret tt.

(** [v.rstrip(chars)] on an attribute value; [None] has no such method. *)
Definition value_rstrip (v : value) (chars : string) : M World string :=
  match v with
  | VStr s => mret (rstrip chars s)
  | VNone => raise (AttributeError "'NoneType' object has no attribute 'rstrip'")
  end.

Section Generate.

(** The network and the server behind it: what [requests.post] comes back
    with, a response or a raised exception (connection refused, timeout),
    given every request sent so far, the current one last. *)
Variable transport : list Request -> exn + Response.

(** [json.loads], by which [Response.json] decodes the body. *)
Variable json_loads : string -> exn + json.

(** [requests.post(url, json=payload, headers=headers, timeout=timeout)] *)
Definition requests_post (url : string) (payload : gmap string value)
    (headers : gmap string string) (timeout : Z) : M World Response :=
  fun w =>
    let rq := mkRequest POST url payload headers timeout in
    (transport (sent w ++ [rq]), mkWorld (self w) (sent w ++ [rq]) (log w)).

(** [resp.json()] *)
Definition Response_json (resp : Response) : M World json :=
  fun w => (json_loads (text resp), w).

(** [LMStudioProvider._headers] *)
Definition _headers : M World (gmap string string) :=
  let headers : gmap string string := {["Content-Type" := "application/json"]} in
  api_key ← gets (fun w => _api_key (self w));
  if truthy api_key
  then mret (<["Authorization" := "Bearer " +:+ py_str api_key]> headers)
  else mret headers.

(** [LMStudioProvider.generate] *)
Definition generate (prompt : string)
    (response_schema : option (gmap string json)) : M World result :=
  server_url ← gets (fun w => _server_url (self w));
  base ← value_rstrip server_url "/";
  let url := base +:+ "/generate" in
  let payload : gmap string value := {["prompt" := VStr prompt]} in
  model ← gets (fun w => _model (self w));
  let payload := if truthy model then <["model" := model]> payload else payload in
  headers ← _headers;
  resp ← requests_post url payload headers 60;
  try_except (raise_for_status resp)
    (fun e => logger_exception "LM Studio request failed: %s" e;; raise e);;
  if dict_truthy response_schema
  then try_except (Structured <$> Response_json resp)
         (fun e => raise (ValueError "Failed to parse JSON response from LM Studio" (Some e)))
  else mret (Text (text resp)).

End Generate.

End LMStudioProvider.

(** ** Module-level registration *)

(** Everything a [raise] can throw: an instance of [Exception], or an
    instance of a class that derives from [BaseException] only, which an
    [except Exception] clause does not catch. *)
Inductive raised : Type :=
| IsException (e : exn)
| KeyboardInterrupt
| SystemExit (code : Z)
| GeneratorExit.

(** [isinstance(b, Exception)] *)
Definition isinstance_Exception (b : raised) : bool :=
  match b with
  | IsException _ => true
  | KeyboardInterrupt | SystemExit _ | GeneratorExit => false
  end.

(** The class object handed to the registry. *)
Record provider_class : Type := mkClass {
  cls_name : string;
  cls_init : gmap string value -> exn + LMStudioProvider.t
}.

Definition LMStudioProvider_class : provider_class :=
  mkClass LMStudioProvider.NAME LMStudioProvider.__init__.

Section Registration.

(** The state of [manager.LLMManager], whatever it is made of. *)
Variable Registry : Type.

(** [manager.LLMManager.register_provider], which is not part of this file:
    any computation over the registry, one that raises included, whatever
    it raises. *)
Variable register_provider :
  provider_class -> Registry -> (raised + unit) * Registry.

(** The [try: ... except Exception: pass] at the end of the module: an
    instance of [Exception] is dropped and the statement ends normally;
    anything else that was raised goes on to the importer. *)
Definition register_on_import : Registry -> (raised + unit) * Registry :=
  fun r =>
    match register_provider LMStudioProvider_class r with
    | (inl b, r') =>
        if isinstance_Exception b then (inr tt, r') else (inl b, r')
    | (inr u, r') => (inr u, r')
    end.

End Registration.

(** ** Notions the properties are stated with *)

Module Notions.
Import LMStudioProvider.

(** The headers and the JSON body of the request, by the attributes of the
    object, and the request as a whole for a base address [u]. *)
Definition headers_for (api_key : value) : gmap string string :=
  if truthy api_key
  then {["Content-Type" := "application/json";
         "Authorization" := "Bearer " +:+ py_str api_key]}
  else {["Content-Type" := "application/json"]}.

Definition payload_for (model : value) (prompt : string) : gmap string value :=
  if truthy model
  then <["model" := model]> {["prompt" := VStr prompt]}
  else {["prompt" := VStr prompt]}.

Definition request_for (o : t) (u prompt : string) : Request :=
  mkRequest POST (rstrip "/" u +:+ "/generate")
            (payload_for (_model o) prompt) (headers_for (_api_key o)) 60.

(** A status [raise_for_status] raises for. *)
Definition error_status (c : Z) : bool := (400 <=? c) && (c <? 600).

(** The record [generate] logs for the exception [e]. *)
Definition failure_record (e : exn) : LogRecord :=
  mkLogRecord logger_name ERROR "LM Studio request failed: %s" [e] true.

(** How the body of a response is interpreted once its status has passed:
    decoded when a schema was asked for, handed back as it is otherwise. *)
Definition interpret_body (json_loads : string -> exn + json)
    (response_schema : option (gmap string json)) (resp : Response)
    : exn + result :=
  if dict_truthy response_schema
  then match json_loads (text resp) with
       | inl e => inl (ValueError "Failed to parse JSON response from LM Studio" (Some e))
       | inr j => inr (Structured j)
       end
  else inr (Text (text resp)).

(** What the network answers to the call [generate prompt response_schema]
    made in the world [w]. *)
Definition received (transport : list Request -> exn + Response)
    (json_loads : string -> exn + json) (prompt : string)
    (response_schema : option (gmap string json)) (w : World)
    : exn + Response :=
  transport (sent (snd (generate transport json_loads prompt response_schema w))).

(** A caller that makes the calls of [calls] one after the other on the
    same object, whatever each of them returns or raises. *)
Fixpoint run_calls (transport : list Request -> exn + Response)
    (json_loads : string -> exn + json)
    (calls : list (string * option (gmap string json))) (w : World) : World :=
  match calls with
  | [] => w
  | (prompt, response_schema) :: calls' =>
      run_calls transport json_loads calls'
        (snd (generate transport json_loads prompt response_schema w))
  end.

(** [n] times the character [/]. *)
Fixpoint slashes (n : nat) : string :=
  match n with
  | O => ""
  | S n' => String "/" (slashes n')
  end.

End Notions.

(** ** Concrete configurations, servers and decoders *)

Module Examples.
Import LMStudioProvider.

Definition cfg_min : gmap string value :=
  {["server_url" := VStr "http://localhost:1234"]}.

Definition cfg_full : gmap string value :=
  {["server_url" := VStr "http://localhost:1234/";
    "model" := VStr "m1";
    "api_key" := VStr "secret"]}.

Definition cfg_blank : gmap string value :=
  {["server_url" := VStr "http://localhost:1234";
    "model" := VStr "";
    "api_key" := VStr ""]}.

Definition obj_min : t := mk cfg_min (VStr "http://localhost:1234") VNone VNone.

Definition obj_full : t :=
  mk cfg_full (VStr "http://localhost:1234/") (VStr "m1") (VStr "secret").

Definition obj_blank : t :=
  mk cfg_blank (VStr "http://localhost:1234") (VStr "") (VStr "").

(** A world in which nothing has been sent or logged yet. *)
Definition fresh (o : t) : World := mkWorld o [] [].

(** A server that answers every request with the same status and body. *)
Definition server (code : Z) (body : string) : list Request -> exn + Response :=
  fun _ => inr (mkResponse code body).

(** A decoder that knows two documents and refuses everything else. *)
Definition loads (s : string) : exn + json :=
  if String.eqb s "1" then inr (JNum 1)
  else if String.eqb s "null" then inr JNull
  else inl (OtherError "JSONDecodeError" "Expecting value").

(** A schema with one entry. *)
Definition schema1 : gmap string json := {["type" := JStr "object"]}.

End Examples.

(** ** Further notions and examples *)

Module Further.
Import LMStudioProvider Notions Examples.

(** The last character of a string, if it has one. *)
Fixpoint last_char (s : string) : option ascii :=
  match s with
  | EmptyString => None
  | String c EmptyString => Some c
  | String _ s' => last_char s'
  end.

(** The request a call with [prompt] makes for an object built from [cfg]
    whose base address is [u]. *)
Definition request_of_config (cfg : gmap string value) (u prompt : string)
    : Request :=
  mkRequest POST (rstrip "/" u +:+ "/generate")
            (payload_for (dict_get cfg "model") prompt)
            (headers_for (dict_get cfg "api_key")) 60.

(** The record [generate] logs, whatever the exception. *)
Definition is_failure_record (r : LogRecord) : Prop :=
  lr_name r = logger_name /\ lr_level r = ERROR /\
  lr_msg r = "LM Studio request failed: %s" /\ lr_exc_info r = true.

(** A network on which every connection is refused. *)
Definition refusing : list Request -> exn + Response :=
  fun _ => inl (OtherError "ConnectionError" "Connection refused").

(** [cfg_min] with an explicit [None] and a key the provider does not
    know. *)
Definition cfg_none : gmap string value :=
  {["server_url" := VStr "http://localhost:1234";
    "model" := VNone;
    "temperature" := VStr "0.2"]}.

Definition obj_none : t :=
  mk cfg_none (VStr "http://localhost:1234") VNone VNone.

Definition cfg_slashed : gmap string value :=
  {["server_url" := VStr "http://localhost:1234///"]}.

Definition obj_slashed : t :=
  mk cfg_slashed (VStr "http://localhost:1234///") VNone VNone.

Definition cfg_root : gmap string value := {["server_url" := VStr "//"]}.

(** A registry by name that refuses a name it already holds. *)
Definition register_by_name (c : provider_class)
    (r : gmap string provider_class)
    : (raised + unit) * gmap string provider_class :=
  match r !! cls_name c with
  | Some _ => (inl (IsException (ValueError "Provider already registered" None)), r)
  | None => (inr tt, <[cls_name c := c]> r)
  end.

(** A registration during which the process is interrupted. *)
Definition register_interrupted (c : provider_class)
    (r : gmap string provider_class)
    : (raised + unit) * gmap string provider_class :=
  (inl KeyboardInterrupt, r).

End Further.

(** * Properties *)

Import LMStudioProvider Notions Examples.

(** ** Construction *)

Lemma truthy_VStr (s : string) : truthy (VStr s) = true <-> s <> "".
Proof. destruct s; simpl; split; congruence. Qed.

Lemma truthy_inv (v : value) :
  truthy v = true -> exists s, v = VStr s /\ s <> "".
Proof.
  destruct v as [|s]; simpl; [discriminate|].
  intros H. exists s. split; [reflexivity|]. by apply truthy_VStr.
Qed.

Lemma dict_get_Some (d : gmap string value) (k : string) (v : value) :
  d !! k = Some v -> dict_get d k = v.
Proof. unfold dict_get. by intros ->. Qed.

Lemma dict_get_None (d : gmap string value) (k : string) :
  d !! k = None -> dict_get d k = VNone.
Proof. unfold dict_get. by intros ->. Qed.

(** What a successful construction leaves in the object. *)
Lemma init_inr (cfg : gmap string value) (o : t) :
  __init__ cfg = inr o ->
  truthy (dict_get cfg "server_url") = true /\
  o = mk cfg (dict_get cfg "server_url") (dict_get cfg "model")
         (dict_get cfg "api_key").
Proof.
  unfold __init__, super_init.
  destruct (truthy (dict_get cfg "server_url")); simpl; [|discriminate].
  intros [= <-]. done.
Qed.

(** C1: a configuration without [server_url], or with the empty string
    under it, is refused by the constructor with the [ValueError] that is
    the provider's configuration error; a configuration with a non-empty
    string under [server_url] yields an object that holds that string, and
    holds under [model] and [api_key] what the configuration has under
    these keys, [None] for a key it does not have. *)
Theorem init_requires_server_url (cfg : gmap string value) :
  (cfg !! "server_url" = None \/ cfg !! "server_url" = Some (VStr "") ->
   __init__ cfg =
     inl (ValueError "LMStudio provider requires 'server_url' in config" None))
  /\
  (forall u : string,
     cfg !! "server_url" = Some (VStr u) -> u <> "" ->
     exists o : t,
       __init__ cfg = inr o /\
       _server_url o = VStr u /\
       (forall m : value, cfg !! "model" = Some m -> _model o = m) /\
       (cfg !! "model" = None -> _model o = VNone) /\
       (forall k : value, cfg !! "api_key" = Some k -> _api_key o = k) /\
       (cfg !! "api_key" = None -> _api_key o = VNone)).
Proof.
  split.
  - intros [H|H]; unfold __init__, super_init.
    + by rewrite (dict_get_None _ _ H).
    + by rewrite (dict_get_Some _ _ _ H).
  - intros u H Hu. unfold __init__, super_init.
    rewrite (dict_get_Some _ _ _ H).
    apply truthy_VStr in Hu. rewrite Hu. simpl.
    eexists. split; [reflexivity|]. simpl. split; [reflexivity|].
    split; [|split; [|split]].
    + intros m Hm. by apply dict_get_Some.
    + intros Hm. by apply dict_get_None.
    + intros k Hk. by apply dict_get_Some.
    + intros Hk. by apply dict_get_None.
Qed.

Lemma init_requires_server_url_witness :
  __init__ ∅ =
    inl (ValueError "LMStudio provider requires 'server_url' in config" None)
  /\
  __init__ {["server_url" := VStr ""; "model" := VStr "m1"]} =
    inl (ValueError "LMStudio provider requires 'server_url' in config" None)
  /\
  (exists o : t,
     __init__ cfg_full = inr o /\
     _server_url o = VStr "http://localhost:1234/" /\
     _model o = VStr "m1" /\
     _api_key o = VStr "secret")
  /\
  (exists o : t,
     __init__ cfg_min = inr o /\
     _server_url o = VStr "http://localhost:1234" /\
     _model o = VNone /\
     _api_key o = VNone).
Proof.
  split; [|split; [|split]].
  - apply (init_requires_server_url ∅). left. reflexivity.
  - apply (init_requires_server_url
             {["server_url" := VStr ""; "model" := VStr "m1"]}).
    right. reflexivity.
  - destruct (proj2 (init_requires_server_url cfg_full)
                "http://localhost:1234/")
      as (o & Hi & Hu & Hm & _ & Hk & _); [reflexivity|discriminate|].
    exists o. split; [exact Hi|]. split; [exact Hu|]. split.
    + apply Hm. reflexivity.
    + apply Hk. reflexivity.
  - destruct (proj2 (init_requires_server_url cfg_min)
                "http://localhost:1234")
      as (o & Hi & Hu & _ & Hm & _ & Hk); [reflexivity|discriminate|].
    exists o. split; [exact Hi|]. split; [exact Hu|]. split.
    + apply Hm. reflexivity.
    + apply Hk. reflexivity.
Defined.

(** ** One call of [generate], step by step *)

Lemma headers_run (w : World) :
  _headers w = (inr (headers_for (_api_key (self w))), w).
Proof.
  unfold _headers, headers_for, mbind, M_bind, gets, mret, M_ret.
  destruct (truthy (_api_key (self w))); [|reflexivity].
  reflexivity.
Qed.

Lemma raise_for_status_run (resp : Response) (w : World) :
  raise_for_status resp w =
    if error_status (status_code resp)
    then (inl (HTTPError resp), w)
    else (inr tt, w).
Proof.
  unfold raise_for_status, error_status, raise, mret, M_ret.
  destruct (400 <=? status_code resp) eqn:H4;
    destruct (status_code resp <? 500) eqn:H5;
    destruct (500 <=? status_code resp) eqn:H6;
    destruct (status_code resp <? 600) eqn:H7; simpl; try reflexivity; lia.
Qed.

Lemma error_status_spec (c : Z) : error_status c = true <-> 400 <= c < 600.
Proof. unfold error_status. rewrite andb_true_iff. lia. Qed.

Lemma generate_run (transport : list Request -> exn + Response)
    (json_loads : string -> exn + json) (w : World) (u prompt : string)
    (response_schema : option (gmap string json)) :
  _server_url (self w) = VStr u ->
  generate transport json_loads prompt response_schema w =
    let rq := request_for (self w) u prompt in
    let w1 := mkWorld (self w) (sent w ++ [rq]) (log w) in
    match transport (sent w ++ [rq]) with
    | inl e => (inl e, w1)
    | inr resp =>
        if error_status (status_code resp)
        then (inl (HTTPError resp),
              mkWorld (self w) (sent w ++ [rq])
                      (log w ++ [failure_record (HTTPError resp)]))
        else (interpret_body json_loads response_schema resp, w1)
    end.
Proof.
  intros Hu. unfold generate, mbind, M_bind, gets, value_rstrip. rewrite Hu.
  cbn [mret M_ret]. rewrite headers_run.
  unfold requests_post, request_for, payload_for. cbn zeta.
  replace (if truthy (_model (self w))
           then <["model":=_model (self w)]> {["prompt" := VStr prompt]}
           else {["prompt" := VStr prompt]})
    with (payload_for (_model (self w)) prompt) by reflexivity.
  destruct (transport _) as [e|resp]; [reflexivity|].
  unfold try_except. rewrite raise_for_status_run.
  destruct (error_status (status_code resp)); [reflexivity|].
  unfold interpret_body.
  destruct (dict_truthy response_schema); [|reflexivity].
  unfold fmap, M_fmap, Response_json, raise.
  destruct (json_loads (text resp)); reflexivity.
Qed.

Lemma generate_sent (transport : list Request -> exn + Response)
    (json_loads : string -> exn + json) (w : World) (u prompt : string)
    (response_schema : option (gmap string json)) :
  _server_url (self w) = VStr u ->
  sent (snd (generate transport json_loads prompt response_schema w)) =
    sent w ++ [request_for (self w) u prompt].
Proof.
  intros Hu. rewrite (generate_run _ _ _ _ _ _ Hu). cbn zeta.
  destruct (transport _) as [e|resp]; [reflexivity|].
  destruct (error_status (status_code resp)); reflexivity.
Qed.

(** The address a constructed object holds is a string. *)
Lemma init_server_url (cfg : gmap string value) (o : t) :
  __init__ cfg = inr o ->
  exists u, _server_url o = VStr u /\ dict_get cfg "server_url" = VStr u /\ u <> "".
Proof.
  intros H. apply init_inr in H as [Ht ->].
  apply truthy_inv in Ht as (u & Hu & Hne). exists u. simpl. done.
Qed.

(** A call whose request was answered with [resp]. *)
Lemma generate_received (transport : list Request -> exn + Response)
    (json_loads : string -> exn + json) (cfg : gmap string value) (w : World)
    (prompt : string) (response_schema : option (gmap string json))
    (resp : Response) :
  __init__ cfg = inr (self w) ->
  received transport json_loads prompt response_schema w = inr resp ->
  generate transport json_loads prompt response_schema w =
    if error_status (status_code resp)
    then (inl (HTTPError resp),
          mkWorld (self w)
            (sent (snd (generate transport json_loads prompt response_schema w)))
            (log w ++ [failure_record (HTTPError resp)]))
    else (interpret_body json_loads response_schema resp,
          mkWorld (self w)
            (sent (snd (generate transport json_loads prompt response_schema w)))
            (log w)).
Proof.
  intros Hi Hr. apply init_server_url in Hi as (u & Hu & _ & _).
  unfold received in Hr. rewrite (generate_sent _ _ _ _ _ _ Hu) in Hr |- *.
  rewrite (generate_run _ _ _ _ _ _ Hu). cbn zeta. rewrite Hr. reflexivity.
Qed.

(** ** The status check *)

(** C2, as the code has it: [generate] raises the [HTTPError] of the
    response, after logging it, exactly when the status is a client or a
    server error (400 to 599); for every other status, every 2xx among
    them, nothing is logged and the outcome is the interpretation of the
    body. *)
Theorem generate_status_check (transport : list Request -> exn + Response)
    (json_loads : string -> exn + json) (cfg : gmap string value) (w : World)
    (prompt : string) (response_schema : option (gmap string json))
    (resp : Response) :
  __init__ cfg = inr (self w) ->
  received transport json_loads prompt response_schema w = inr resp ->
  ((exists r, fst (generate transport json_loads prompt response_schema w)
              = inl (HTTPError r))
   <-> 400 <= status_code resp < 600)
  /\
  (400 <= status_code resp < 600 ->
   fst (generate transport json_loads prompt response_schema w)
     = inl (HTTPError resp) /\
   log (snd (generate transport json_loads prompt response_schema w))
     = log w ++ [failure_record (HTTPError resp)])
  /\
  (~ 400 <= status_code resp < 600 ->
   fst (generate transport json_loads prompt response_schema w)
     = interpret_body json_loads response_schema resp /\
   log (snd (generate transport json_loads prompt response_schema w))
     = log w).
Proof.
  intros Hi Hr. rewrite (generate_received _ _ _ _ _ _ _ Hi Hr).
  pose proof (error_status_spec (status_code resp)) as Hs.
  destruct (error_status (status_code resp)); simpl.
  - assert (400 <= status_code resp < 600) as Hc by (by apply Hs).
    split; [|split]; [split| |]; eauto. intros Hn. contradiction.
  - assert (~ 400 <= status_code resp < 600) as Hc
        by (intros Hc; apply Hs in Hc; discriminate).
    split; [|split]; [split| |]; try done.
    intros [r Hr']. exfalso. revert Hr'. unfold interpret_body.
    destruct (dict_truthy response_schema); [|discriminate].
    destruct (json_loads (text resp)); discriminate.
Qed.

Lemma generate_status_check_witness :
  __init__ cfg_min = inr (self (fresh obj_min)) /\
  received (server 500 "oops") loads "hi" None (fresh obj_min)
    = inr (mkResponse 500 "oops") /\
  fst (generate (server 500 "oops") loads "hi" None (fresh obj_min))
    = inl (HTTPError (mkResponse 500 "oops")) /\
  log (snd (generate (server 500 "oops") loads "hi" None (fresh obj_min)))
    = [failure_record (HTTPError (mkResponse 500 "oops"))].
Proof.
  split; [reflexivity|]. split; [reflexivity|].
  destruct (generate_status_check (server 500 "oops") loads cfg_min
              (fresh obj_min) "hi" None (mkResponse 500 "oops"))
    as (_ & H & _); [reflexivity|reflexivity|].
  apply H. simpl. lia.
Defined.

(** C2, as stated, fails at status 304: it is outside the 2xx range, yet
    [generate] raises nothing, logs nothing and returns the body. *)
Lemma generate_304_returns_body :
  __init__ cfg_min = inr (self (fresh obj_min)) /\
  received (server 304 "hello") loads "hi" None (fresh obj_min)
    = inr (mkResponse 304 "hello") /\
  ~ 200 <= status_code (mkResponse 304 "hello") < 300 /\
  fst (generate (server 304 "hello") loads "hi" None (fresh obj_min))
    = inr (Text "hello") /\
  log (snd (generate (server 304 "hello") loads "hi" None (fresh obj_min)))
    = [].
Proof.
  split; [reflexivity|]. split; [reflexivity|].
  split; [simpl; lia|]. split; reflexivity.
Qed.

(** ** Interpreting the body *)

Lemma dict_truthy_Some {V} (m : gmap string V) :
  dict_truthy (Some m) = true <-> m <> ∅.
Proof.
  unfold dict_truthy. rewrite negb_true_iff, bool_decide_eq_false. done.
Qed.

Lemma success_not_error (c : Z) : 200 <= c < 300 -> error_status c = false.
Proof.
  intros H. destruct (error_status c) eqn:E; [|reflexivity].
  apply error_status_spec in E. lia.
Qed.

(** C3, as the code has it: with a response schema that is neither [None]
    nor the empty [dict], and a 2xx response, [generate] returns the
    decoded body when the body decodes, and raises the [ValueError] that is
    the provider's decoding error, with the decoder's exception as its
    cause, when it does not. *)
Theorem generate_schema_decodes (transport : list Request -> exn + Response)
    (json_loads : string -> exn + json) (cfg : gmap string value) (w : World)
    (prompt : string) (response_schema : gmap string json) (resp : Response) :
  __init__ cfg = inr (self w) ->
  response_schema <> ∅ ->
  received transport json_loads prompt (Some response_schema) w = inr resp ->
  200 <= status_code resp < 300 ->
  (forall j : json,
     json_loads (text resp) = inr j ->
     fst (generate transport json_loads prompt (Some response_schema) w)
       = inr (Structured j))
  /\
  (forall e : exn,
     json_loads (text resp) = inl e ->
     fst (generate transport json_loads prompt (Some response_schema) w)
       = inl (ValueError "Failed to parse JSON response from LM Studio" (Some e))).
Proof.
  intros Hi Hne Hr Hc. rewrite (generate_received _ _ _ _ _ _ _ Hi Hr).
  rewrite (success_not_error _ Hc). unfold interpret_body.
  apply dict_truthy_Some in Hne. rewrite Hne. simpl.
  split; intros x Hx; by rewrite Hx.
Qed.

Lemma generate_schema_decodes_witness :
  (loads "1" = inr (JNum 1) /\
   fst (generate (server 200 "1") loads "hi" (Some schema1) (fresh obj_min))
     = inr (Structured (JNum 1)))
  /\
  (loads "not json" = inl (OtherError "JSONDecodeError" "Expecting value") /\
   fst (generate (server 200 "not json") loads "hi" (Some schema1) (fresh obj_min))
     = inl (ValueError "Failed to parse JSON response from LM Studio"
              (Some (OtherError "JSONDecodeError" "Expecting value")))).
Proof.
  split; (split; [reflexivity|]).
  - apply (generate_schema_decodes (server 200 "1") loads cfg_min
             (fresh obj_min) "hi" schema1 (mkResponse 200 "1"));
      [reflexivity|by vm_compute|reflexivity|simpl; lia|reflexivity].
  - apply (generate_schema_decodes (server 200 "not json") loads cfg_min
             (fresh obj_min) "hi" schema1 (mkResponse 200 "not json"));
      [reflexivity|by vm_compute|reflexivity|simpl; lia|reflexivity].
Defined.

(** C3, as stated, fails for the empty [dict], which is not [None]: the
    body is handed back as text, whether it decodes or not. *)
Lemma generate_empty_schema_returns_text :
  __init__ cfg_min = inr (self (fresh obj_min)) /\
  Some (∅ : gmap string json) <> None /\
  200 <= status_code (mkResponse 200 "1") < 300 /\
  (received (server 200 "1") loads "hi" (Some ∅) (fresh obj_min)
     = inr (mkResponse 200 "1") /\
   loads "1" = inr (JNum 1) /\
   fst (generate (server 200 "1") loads "hi" (Some ∅) (fresh obj_min))
     = inr (Text "1")) /\
  (received (server 200 "not json") loads "hi" (Some ∅) (fresh obj_min)
     = inr (mkResponse 200 "not json") /\
   loads "not json" = inl (OtherError "JSONDecodeError" "Expecting value") /\
   fst (generate (server 200 "not json") loads "hi" (Some ∅) (fresh obj_min))
     = inr (Text "not json")).
Proof.
  split; [reflexivity|]. split; [discriminate|]. split; [simpl; lia|].
  split; (split; [reflexivity|]; split; reflexivity).
Qed.

(** C4: without a response schema, a 2xx response has its body text
    returned as it is, whatever the decoder would make of it. *)
Theorem generate_no_schema_returns_text
    (transport : list Request -> exn + Response)
    (json_loads : string -> exn + json) (cfg : gmap string value) (w : World)
    (prompt : string) (resp : Response) :
  __init__ cfg = inr (self w) ->
  received transport json_loads prompt None w = inr resp ->
  200 <= status_code resp < 300 ->
  fst (generate transport json_loads prompt None w) = inr (Text (text resp)).
Proof.
  intros Hi Hr Hc. rewrite (generate_received _ _ _ _ _ _ _ Hi Hr).
  by rewrite (success_not_error _ Hc).
Qed.

Lemma generate_no_schema_returns_text_witness :
  fst (generate (server 200 "hello") loads "hi" None (fresh obj_min))
    = inr (Text "hello").
Proof.
  apply (generate_no_schema_returns_text (server 200 "hello") loads cfg_min
           (fresh obj_min) "hi" (mkResponse 200 "hello"));
    [reflexivity|reflexivity|simpl; lia].
Defined.

(** ** The request *)

Lemma append_nil_l (s : string) : "" +:+ s = s.
Proof. reflexivity. Qed.

Lemma append_cons (a : ascii) (s t : string) :
  String a s +:+ t = String a (s +:+ t).
Proof. reflexivity. Qed.

Lemma append_slash_nonempty (p : string) : p +:+ "/" <> "".
Proof. destruct p; discriminate. Qed.

Lemma rstrip_cons (c : ascii) (s : string) :
  rstrip "/" (String c s) =
    match rstrip "/" s with
    | EmptyString => if Ascii.eqb c "/" then "" else String c ""
    | r => String c r
    end.
Proof.
  simpl. destruct (rstrip "/" s); [|reflexivity].
  by destruct (Ascii.eqb c "/").
Qed.

(** What [rstrip] cuts off is a run of slashes. *)
Lemma rstrip_slashes (s : string) :
  exists n : nat, s = rstrip "/" s +:+ slashes n.
Proof.
  induction s as [|c s [n IH]]; [by exists O|].
  rewrite rstrip_cons. destruct (rstrip "/" s) as [|d r] eqn:E.
  - rewrite append_nil_l in IH. destruct (Ascii.eqb_spec c "/") as [->|Hc].
    + exists (S n). rewrite append_nil_l. simpl. by rewrite <- IH.
    + exists n. rewrite append_cons, append_nil_l. by rewrite <- IH.
  - exists n. rewrite append_cons. by rewrite <- IH.
Qed.

(** What [rstrip] leaves does not end with a slash. *)
Lemma rstrip_no_trailing_slash (s p : string) : rstrip "/" s <> p +:+ "/".
Proof.
  revert p. induction s as [|c s IH]; intros p.
  - simpl. intros H. by apply (append_slash_nonempty p).
  - rewrite rstrip_cons. destruct (rstrip "/" s) as [|d r] eqn:E.
    + destruct (Ascii.eqb_spec c "/") as [->|Hc].
      * intros H. by apply (append_slash_nonempty p).
      * destruct p as [|a p]; [rewrite append_nil_l; congruence|].
        rewrite append_cons. intros [= _ H].
        by apply (append_slash_nonempty p).
    + destruct p as [|a p]; [rewrite append_nil_l; discriminate|].
      rewrite append_cons. intros [= _ H]. by apply (IH p).
Qed.

Lemma headers_for_content_type (api_key : value) :
  headers_for api_key !! "Content-Type" = Some "application/json".
Proof. unfold headers_for. by destruct (truthy api_key). Qed.

Lemma headers_for_authorization (api_key : value) :
  headers_for api_key !! "Authorization" =
    if truthy api_key then Some ("Bearer " +:+ py_str api_key) else None.
Proof. unfold headers_for. by destruct (truthy api_key). Qed.

(** The one request of a call on a constructed object. *)
Lemma generate_request (transport : list Request -> exn + Response)
    (json_loads : string -> exn + json) (cfg : gmap string value) (w : World)
    (prompt : string) (response_schema : option (gmap string json)) :
  __init__ cfg = inr (self w) ->
  exists u : string,
    dict_get cfg "server_url" = VStr u /\
    sent (snd (generate transport json_loads prompt response_schema w)) =
      sent w ++ [mkRequest POST (rstrip "/" u +:+ "/generate")
                   (payload_for (dict_get cfg "model") prompt)
                   (headers_for (dict_get cfg "api_key")) 60].
Proof.
  intros Hi. destruct (init_server_url _ _ Hi) as (u & Hu & Hg & _).
  exists u. split; [done|]. rewrite (generate_sent _ _ _ _ _ _ Hu).
  apply init_inr in Hi as [_ ->]. reflexivity.
Qed.

(** C5: a call on a constructed object puts exactly one request on the
    wire; it is a POST, its URL is the configured [server_url] without its
    trailing slashes followed by [/generate], and it has the header
    [Content-Type: application/json]. *)
Theorem generate_posts_once (transport : list Request -> exn + Response)
    (json_loads : string -> exn + json) (cfg : gmap string value) (w : World)
    (u prompt : string) (response_schema : option (gmap string json)) :
  __init__ cfg = inr (self w) ->
  cfg !! "server_url" = Some (VStr u) ->
  exists (rq : Request) (base : string) (n : nat),
    sent (snd (generate transport json_loads prompt response_schema w))
      = sent w ++ [rq] /\
    rq_method rq = POST /\
    u = base +:+ slashes n /\
    (forall p : string, base <> p +:+ "/") /\
    base = rstrip "/" u /\
    rq_url rq = base +:+ "/generate" /\
    rq_headers rq !! "Content-Type" = Some "application/json".
Proof.
  intros Hi Hu. destruct (generate_request transport json_loads _ _ prompt
                            response_schema Hi) as (u' & Hu' & Hs).
  rewrite (dict_get_Some _ _ _ Hu) in Hu'. injection Hu' as <-.
  destruct (rstrip_slashes u) as [n Hn].
  eexists _, (rstrip "/" u), n. split; [exact Hs|]. simpl.
  repeat split; try done.
  - intros p. apply rstrip_no_trailing_slash.
  - apply headers_for_content_type.
Qed.

Lemma generate_posts_once_witness :
  exists (rq : Request) (base : string) (n : nat),
    sent (snd (generate (server 200 "hello") loads "hi" None (fresh obj_full)))
      = sent (fresh obj_full) ++ [rq] /\
    rq_method rq = POST /\
    "http://localhost:1234/" = base +:+ slashes n /\
    (forall p : string, base <> p +:+ "/") /\
    base = rstrip "/" "http://localhost:1234/" /\
    rq_url rq = base +:+ "/generate" /\
    rq_headers rq !! "Content-Type" = Some "application/json".
Proof.
  apply (generate_posts_once (server 200 "hello") loads cfg_full
           (fresh obj_full) "http://localhost:1234/" "hi" None);
    reflexivity.
Defined.

Lemma payload_for_model (model : value) (prompt : string) :
  payload_for model prompt !! "model" = if truthy model then Some model else None.
Proof. unfold payload_for. by destruct (truthy model). Qed.

Lemma payload_for_prompt (model : value) (prompt : string) :
  payload_for model prompt !! "prompt" = Some (VStr prompt).
Proof. unfold payload_for. by destruct (truthy model). Qed.

(** C6: the request of a call carries [Authorization: Bearer <api_key>]
    when the configuration gives an API key, and no [Authorization] header
    when the configuration has no [api_key]. *)
Theorem generate_authorization_header
    (transport : list Request -> exn + Response)
    (json_loads : string -> exn + json) (cfg : gmap string value) (w : World)
    (prompt : string) (response_schema : option (gmap string json)) :
  __init__ cfg = inr (self w) ->
  exists rq : Request,
    sent (snd (generate transport json_loads prompt response_schema w))
      = sent w ++ [rq] /\
    (forall k : string,
       cfg !! "api_key" = Some (VStr k) -> k <> "" ->
       rq_headers rq !! "Authorization" = Some ("Bearer " +:+ k)) /\
    (cfg !! "api_key" = None -> rq_headers rq !! "Authorization" = None).
Proof.
  intros Hi. destruct (generate_request transport json_loads _ _ prompt
                         response_schema Hi) as (u & _ & Hs).
  eexists. split; [exact Hs|]. simpl. rewrite headers_for_authorization.
  split.
  - intros k Hk Hne. rewrite (dict_get_Some _ _ _ Hk).
    apply truthy_VStr in Hne. by rewrite Hne.
  - intros Hk. by rewrite (dict_get_None _ _ Hk).
Qed.

Lemma generate_authorization_header_witness :
  (exists rq : Request,
     sent (snd (generate (server 200 "hello") loads "hi" None (fresh obj_full)))
       = [rq] /\
     rq_headers rq !! "Authorization" = Some "Bearer secret")
  /\
  (exists rq : Request,
     sent (snd (generate (server 200 "hello") loads "hi" None (fresh obj_min)))
       = [rq] /\
     rq_headers rq !! "Authorization" = None).
Proof.
  split.
  - destruct (generate_authorization_header (server 200 "hello") loads cfg_full
                (fresh obj_full) "hi" None) as (rq & Hs & Hk & _);
      [reflexivity|].
    exists rq. split; [exact Hs|]. apply (Hk "secret"); [reflexivity|discriminate].
  - destruct (generate_authorization_header (server 200 "hello") loads cfg_min
                (fresh obj_min) "hi" None) as (rq & Hs & _ & Hn);
      [reflexivity|].
    exists rq. split; [exact Hs|]. apply Hn. reflexivity.
Defined.

(** C7: the JSON body of the request of a call has the prompt and, when the
    configuration gives a model, the field [model] with that model; when
    the configuration has no [model], the prompt is its only field. *)
Theorem generate_payload_model
    (transport : list Request -> exn + Response)
    (json_loads : string -> exn + json) (cfg : gmap string value) (w : World)
    (prompt : string) (response_schema : option (gmap string json)) :
  __init__ cfg = inr (self w) ->
  exists rq : Request,
    sent (snd (generate transport json_loads prompt response_schema w))
      = sent w ++ [rq] /\
    rq_json rq !! "prompt" = Some (VStr prompt) /\
    (forall m : string,
       cfg !! "model" = Some (VStr m) -> m <> "" ->
       rq_json rq !! "model" = Some (VStr m)) /\
    (cfg !! "model" = None -> rq_json rq = {["prompt" := VStr prompt]}).
Proof.
  intros Hi. destruct (generate_request transport json_loads _ _ prompt
                         response_schema Hi) as (u & _ & Hs).
  eexists. split; [exact Hs|]. simpl.
  split; [apply payload_for_prompt|]. split.
  - intros m Hm Hne. rewrite payload_for_model, (dict_get_Some _ _ _ Hm).
    apply truthy_VStr in Hne. by rewrite Hne.
  - intros Hm. by rewrite (dict_get_None _ _ Hm).
Qed.

Lemma generate_payload_model_witness :
  (exists rq : Request,
     sent (snd (generate (server 200 "hello") loads "hi" None (fresh obj_full)))
       = [rq] /\
     rq_json rq !! "model" = Some (VStr "m1"))
  /\
  (exists rq : Request,
     sent (snd (generate (server 200 "hello") loads "hi" None (fresh obj_min)))
       = [rq] /\
     rq_json rq = {["prompt" := VStr "hi"]}).
Proof.
  split.
  - destruct (generate_payload_model (server 200 "hello") loads cfg_full
                (fresh obj_full) "hi" None) as (rq & Hs & _ & Hm & _);
      [reflexivity|].
    exists rq. split; [exact Hs|]. apply (Hm "m1"); [reflexivity|discriminate].
  - destruct (generate_payload_model (server 200 "hello") loads cfg_min
                (fresh obj_min) "hi" None) as (rq & Hs & _ & _ & Hn);
      [reflexivity|].
    exists rq. split; [exact Hs|]. apply Hn. reflexivity.
Defined.

(** C10: an empty string counts as no value: with [api_key] configured as
    the empty string the request has [Content-Type] as its only header, so
    no [Authorization] header, and with [model] configured as the empty
    string the body has the prompt as its only field, so no [model]
    field. *)
Theorem generate_empty_string_as_absent
    (transport : list Request -> exn + Response)
    (json_loads : string -> exn + json) (cfg : gmap string value) (w : World)
    (prompt : string) (response_schema : option (gmap string json)) :
  __init__ cfg = inr (self w) ->
  exists rq : Request,
    sent (snd (generate transport json_loads prompt response_schema w))
      = sent w ++ [rq] /\
    (cfg !! "api_key" = Some (VStr "") ->
     rq_headers rq = {["Content-Type" := "application/json"]} /\
     rq_headers rq !! "Authorization" = None) /\
    (cfg !! "model" = Some (VStr "") ->
     rq_json rq = {["prompt" := VStr prompt]} /\
     rq_json rq !! "model" = None).
Proof.
  intros Hi. destruct (generate_request transport json_loads _ _ prompt
                         response_schema Hi) as (u & _ & Hs).
  eexists. split; [exact Hs|]. simpl. split.
  - intros Hk. by rewrite (dict_get_Some _ _ _ Hk).
  - intros Hm. by rewrite (dict_get_Some _ _ _ Hm).
Qed.

Lemma generate_empty_string_as_absent_witness :
  exists rq : Request,
    sent (snd (generate (server 200 "hello") loads "hi" None (fresh obj_blank)))
      = [rq] /\
    rq_headers rq !! "Authorization" = None /\
    rq_json rq !! "model" = None.
Proof.
  destruct (generate_empty_string_as_absent (server 200 "hello") loads
              cfg_blank (fresh obj_blank) "hi" None) as (rq & Hs & Hk & Hm);
    [reflexivity|].
  exists rq. split; [exact Hs|]. split.
  - apply Hk. reflexivity.
  - apply Hm. reflexivity.
Defined.

(** ** No state is written *)

Lemma generate_self (transport : list Request -> exn + Response)
    (json_loads : string -> exn + json) (w : World) (prompt : string)
    (response_schema : option (gmap string json)) :
  self (snd (generate transport json_loads prompt response_schema w)) = self w.
Proof.
  destruct (_server_url (self w)) as [|u] eqn:Hu.
  - unfold generate, mbind, M_bind, gets, value_rstrip. by rewrite Hu.
  - rewrite (generate_run _ _ _ _ _ _ Hu). cbn zeta.
    destruct (transport _) as [e|resp]; [reflexivity|].
    by destruct (error_status (status_code resp)).
Qed.

(** What a call puts on the wire depends on the object and the prompt
    only. *)
Lemma generate_sent_by_self (transport : list Request -> exn + Response)
    (json_loads : string -> exn + json) (w w' : World) (prompt : string)
    (response_schema : option (gmap string json)) :
  self w' = self w ->
  exists l : list Request,
    sent (snd (generate transport json_loads prompt response_schema w))
      = sent w ++ l /\
    sent (snd (generate transport json_loads prompt response_schema w'))
      = sent w' ++ l.
Proof.
  intros Hw. destruct (_server_url (self w)) as [|u] eqn:Hu.
  - exists []. unfold generate, mbind, M_bind, gets, value_rstrip.
    rewrite Hw, Hu. simpl. by rewrite !app_nil_r.
  - exists [request_for (self w) u prompt]. split.
    + by apply generate_sent.
    + rewrite <- Hw. apply generate_sent. by rewrite Hw.
Qed.

Lemma run_calls_self (transport : list Request -> exn + Response)
    (json_loads : string -> exn + json)
    (calls : list (string * option (gmap string json))) (w : World) :
  self (run_calls transport json_loads calls w) = self w.
Proof.
  revert w. induction calls as [|[prompt schema] calls IH]; intros w.
  - reflexivity.
  - simpl. rewrite IH. apply generate_self.
Qed.

(** C9: no call of [generate] writes to the object: after any sequence of
    calls, whatever they returned or raised, [server_url], [model] and
    [api_key] (and the configuration) are what they were, and a further
    call puts on the wire what it would have put on it before them. *)
Theorem generate_writes_no_state
    (transport : list Request -> exn + Response)
    (json_loads : string -> exn + json)
    (calls : list (string * option (gmap string json))) (w : World) :
  self (run_calls transport json_loads calls w) = self w /\
  forall (prompt : string) (response_schema : option (gmap string json)),
  exists l : list Request,
    sent (snd (generate transport json_loads prompt response_schema w))
      = sent w ++ l /\
    sent (snd (generate transport json_loads prompt response_schema
                 (run_calls transport json_loads calls w)))
      = sent (run_calls transport json_loads calls w) ++ l.
Proof.
  split; [apply run_calls_self|].
  intros prompt response_schema. apply generate_sent_by_self, run_calls_self.
Qed.

(** ** Registration *)

(** C8, as the code has it: whatever the registry holds, the registration
    at import ends normally when [register_provider] returns and when it
    raises an instance of [Exception], which is dropped; an exception that
    derives from [BaseException] only is not caught and reaches the
    importer.  The registry is left as [register_provider] left it. *)
Theorem register_on_import_swallows_Exception (Registry : Type)
    (register_provider :
       provider_class -> Registry -> (raised + unit) * Registry)
    (r : Registry) :
  (forall u : unit,
     fst (register_provider LMStudioProvider_class r) = inr u ->
     fst (register_on_import Registry register_provider r) = inr tt)
  /\
  (forall b : raised,
     fst (register_provider LMStudioProvider_class r) = inl b ->
     isinstance_Exception b = true ->
     fst (register_on_import Registry register_provider r) = inr tt)
  /\
  (forall b : raised,
     fst (register_provider LMStudioProvider_class r) = inl b ->
     isinstance_Exception b = false ->
     fst (register_on_import Registry register_provider r) = inl b)
  /\
  snd (register_on_import Registry register_provider r)
    = snd (register_provider LMStudioProvider_class r).
Proof.
  unfold register_on_import.
  destruct (register_provider LMStudioProvider_class r) as [[b|[]] r'];
    simpl.
  - destruct (isinstance_Exception b) eqn:Hb; simpl.
    + split; [discriminate|]. split; [reflexivity|]. split; [|reflexivity].
      intros b' [= <-] Hb'. congruence.
    + split; [discriminate|]. split; [|split; [|reflexivity]].
      * intros b' [= <-] Hb'. congruence.
      * intros b' [= <-] _. reflexivity.
  - split; [reflexivity|]. split; [discriminate|].
    split; [discriminate|reflexivity].
Qed.

Lemma register_on_import_swallows_Exception_witness :
  fst (Further.register_by_name LMStudioProvider_class
         {["lmstudio" := LMStudioProvider_class]})
    = inl (IsException (ValueError "Provider already registered" None)) /\
  fst (register_on_import _ Further.register_by_name
         {["lmstudio" := LMStudioProvider_class]}) = inr tt.
Proof.
  split; [reflexivity|].
  destruct (register_on_import_swallows_Exception _ Further.register_by_name
              {["lmstudio" := LMStudioProvider_class]}) as (_ & H & _).
  apply (H (IsException (ValueError "Provider already registered" None)));
    reflexivity.
Defined.

(** C8, as stated, fails when what [register_provider] raises is not an
    instance of [Exception]: a [KeyboardInterrupt] during the registration
    passes the [except Exception] clause and ends the import. *)
Lemma register_on_import_lets_KeyboardInterrupt_through :
  fst (Further.register_interrupted LMStudioProvider_class ∅) = inl KeyboardInterrupt /\
  fst (register_on_import _ Further.register_interrupted ∅) = inl KeyboardInterrupt /\
  fst (register_on_import _ Further.register_interrupted ∅) <> inr tt.
Proof. split; [reflexivity|]. split; [reflexivity|discriminate]. Qed.

(** * Further properties *)

Import Further.

(** ** Construction, in full *)

(** X1: an explicit [None] under [server_url] is refused like a missing
    key, with the same [ValueError]; and [model] and [api_key] have no part
    in it: setting them to anything leaves a configuration that constructs
    constructing, and one that is refused refused. *)
Theorem init_decided_by_server_url (cfg : gmap string value) :
  (cfg !! "server_url" = Some VNone ->
   __init__ cfg =
     inl (ValueError "LMStudio provider requires 'server_url' in config" None))
  /\
  (forall m k : value,
     (exists o : t, __init__ (<["model" := m]> (<["api_key" := k]> cfg)) = inr o)
     <-> (exists o : t, __init__ cfg = inr o)).
Proof.
  split.
  - intros H. unfold __init__, super_init. by rewrite (dict_get_Some _ _ _ H).
  - intros m k. unfold __init__, super_init.
    assert (dict_get (<["model" := m]> (<["api_key" := k]> cfg)) "server_url"
            = dict_get cfg "server_url") as ->.
    { unfold dict_get. by rewrite !lookup_insert_ne. }
    destruct (truthy (dict_get cfg "server_url")); simpl.
    + split; intros _; eauto.
    + split; intros [o H]; discriminate.
Qed.

Lemma init_decided_by_server_url_witness :
  __init__ {["server_url" := VNone; "model" := VStr "m1"]} =
    inl (ValueError "LMStudio provider requires 'server_url' in config" None).
Proof.
  apply (proj1 (init_decided_by_server_url
                  {["server_url" := VNone; "model" := VStr "m1"]})).
  reflexivity.
Defined.

(** ** Every way [generate] can end *)

Lemma generate_received_exn (transport : list Request -> exn + Response)
    (json_loads : string -> exn + json) (cfg : gmap string value) (w : World)
    (prompt : string) (response_schema : option (gmap string json))
    (e : exn) :
  __init__ cfg = inr (self w) ->
  received transport json_loads prompt response_schema w = inl e ->
  generate transport json_loads prompt response_schema w =
    (inl e,
     mkWorld (self w)
       (sent (snd (generate transport json_loads prompt response_schema w)))
       (log w)).
Proof.
  intros Hi Hr. apply init_server_url in Hi as (u & Hu & _ & _).
  unfold received in Hr. rewrite (generate_sent _ _ _ _ _ _ Hu) in Hr |- *.
  rewrite (generate_run _ _ _ _ _ _ Hu). cbn zeta. rewrite Hr. reflexivity.
Qed.

(** X2: when [requests.post] itself raises (no connection, timeout),
    [generate] lets that exception through as it is and logs nothing: the
    call to [post] is outside the [try] that logs.  The request has been
    put on the wire all the same. *)
Theorem generate_network_failure (transport : list Request -> exn + Response)
    (json_loads : string -> exn + json) (cfg : gmap string value) (w : World)
    (prompt : string) (response_schema : option (gmap string json))
    (e : exn) :
  __init__ cfg = inr (self w) ->
  received transport json_loads prompt response_schema w = inl e ->
  fst (generate transport json_loads prompt response_schema w) = inl e /\
  log (snd (generate transport json_loads prompt response_schema w)) = log w /\
  length (sent (snd (generate transport json_loads prompt response_schema w)))
    = S (length (sent w)).
Proof.
  intros Hi Hr. split; [|split].
  - by rewrite (generate_received_exn _ _ _ _ _ _ _ Hi Hr).
  - by rewrite (generate_received_exn _ _ _ _ _ _ _ Hi Hr).
  - apply init_server_url in Hi as (u & Hu & _ & _).
    rewrite (generate_sent _ _ _ _ _ _ Hu), length_app. simpl. lia.
Qed.

Lemma generate_network_failure_witness :
  fst (generate refusing loads "hi" (Some schema1) (fresh obj_full))
    = inl (OtherError "ConnectionError" "Connection refused") /\
  log (snd (generate refusing loads "hi" (Some schema1) (fresh obj_full)))
    = [] /\
  length (sent (snd (generate refusing loads "hi" (Some schema1)
                       (fresh obj_full))))
    = 1%nat.
Proof.
  apply (generate_network_failure refusing loads cfg_full (fresh obj_full)
           "hi" (Some schema1)
           (OtherError "ConnectionError" "Connection refused"));
    reflexivity.
Defined.



(** ** The response schema *)

Lemma generate_no_server_url (transport : list Request -> exn + Response)
    (json_loads : string -> exn + json) (w : World) (prompt : string)
    (response_schema : option (gmap string json)) :
  _server_url (self w) = VNone ->
  generate transport json_loads prompt response_schema w =
    (inl (AttributeError "'NoneType' object has no attribute 'rstrip'"), w).
Proof.
  intros Hu. unfold generate, mbind, M_bind, gets, value_rstrip.
  by rewrite Hu.
Qed.

(** X4: the response schema never reaches the server: whatever schema a
    call is given, it puts the same requests on the wire. *)
Theorem generate_schema_not_sent (transport : list Request -> exn + Response)
    (json_loads : string -> exn + json) (w : World) (prompt : string)
    (schema schema' : option (gmap string json)) :
  sent (snd (generate transport json_loads prompt schema w)) =
  sent (snd (generate transport json_loads prompt schema' w)).
Proof.
  destruct (_server_url (self w)) as [|u] eqn:Hu.
  - by rewrite !generate_no_server_url.
  - by rewrite !(generate_sent _ _ _ _ _ _ Hu).
Qed.

(** X5: the schema only chooses between text and decoded JSON: two schemas
    of the same truthiness give the same outcome in every respect, so an
    empty [dict] acts as [None], and what a non-empty schema contains makes
    no difference. *)
Theorem generate_schema_only_toggles
    (transport : list Request -> exn + Response)
    (json_loads : string -> exn + json) (w : World) (prompt : string)
    (schema schema' : option (gmap string json)) :
  dict_truthy schema = dict_truthy schema' ->
  generate transport json_loads prompt schema w =
  generate transport json_loads prompt schema' w.
Proof.
  intros Ht. destruct (_server_url (self w)) as [|u] eqn:Hu.
  - by rewrite !generate_no_server_url.
  - rewrite !(generate_run _ _ _ _ _ _ Hu). cbn zeta.
    destruct (transport _) as [e|resp]; [reflexivity|].
    destruct (error_status (status_code resp)); [reflexivity|].
    unfold interpret_body. by rewrite Ht.
Qed.

Lemma generate_schema_only_toggles_witness :
  generate (server 200 "1") loads "hi" (Some ∅) (fresh obj_min) =
  generate (server 200 "1") loads "hi" None (fresh obj_min).
Proof.
  apply (generate_schema_only_toggles (server 200 "1") loads (fresh obj_min)
           "hi" (Some ∅) None).
  reflexivity.
Defined.

(** ** The configuration *)

(** X6: only [server_url], [model] and [api_key] count: objects built from
    two configurations that agree on these three under [dict.get] (so with
    any other keys, and with an explicit [None] for a missing key) behave
    alike: same outcome, same requests, same log. *)
Theorem generate_reads_three_keys
    (transport : list Request -> exn + Response)
    (json_loads : string -> exn + json) (cfg1 cfg2 : gmap string value)
    (o1 o2 : t) (rqs : list Request) (recs : list LogRecord)
    (prompt : string) (response_schema : option (gmap string json)) :
  __init__ cfg1 = inr o1 ->
  __init__ cfg2 = inr o2 ->
  dict_get cfg1 "server_url" = dict_get cfg2 "server_url" ->
  dict_get cfg1 "model" = dict_get cfg2 "model" ->
  dict_get cfg1 "api_key" = dict_get cfg2 "api_key" ->
  fst (generate transport json_loads prompt response_schema
         (mkWorld o1 rqs recs)) =
  fst (generate transport json_loads prompt response_schema
         (mkWorld o2 rqs recs)) /\
  sent (snd (generate transport json_loads prompt response_schema
               (mkWorld o1 rqs recs))) =
  sent (snd (generate transport json_loads prompt response_schema
               (mkWorld o2 rqs recs))) /\
  log (snd (generate transport json_loads prompt response_schema
              (mkWorld o1 rqs recs))) =
  log (snd (generate transport json_loads prompt response_schema
              (mkWorld o2 rqs recs))).
Proof.
  intros H1 H2 Hu Hm Hk.
  destruct (init_server_url _ _ H1) as (u & Hu1 & Hg & _).
  apply init_inr in H1 as [_ ->]. apply init_inr in H2 as [_ ->].
  rewrite (generate_run transport json_loads (mkWorld _ rqs recs) u); [|done].
  rewrite (generate_run transport json_loads (mkWorld _ rqs recs) u);
    [|simpl; by rewrite <- Hu].
  unfold request_for. simpl. rewrite <- Hm, <- Hk.
  destruct (transport _) as [e|resp]; [done|].
  by destruct (error_status (status_code resp)).
Qed.

Lemma generate_reads_three_keys_witness :
  fst (generate (server 200 "hello") loads "hi" None (mkWorld obj_min [] [])) =
  fst (generate (server 200 "hello") loads "hi" None (mkWorld obj_none [] [])) /\
  sent (snd (generate (server 200 "hello") loads "hi" None
               (mkWorld obj_min [] []))) =
  sent (snd (generate (server 200 "hello") loads "hi" None
               (mkWorld obj_none [] []))) /\
  log (snd (generate (server 200 "hello") loads "hi" None
              (mkWorld obj_min [] []))) =
  log (snd (generate (server 200 "hello") loads "hi" None
              (mkWorld obj_none [] []))).
Proof.
  apply (generate_reads_three_keys (server 200 "hello") loads cfg_min cfg_none
           obj_min obj_none [] [] "hi" None); reflexivity.
Defined.

(** ** Sequences of calls *)

Lemma dict_get_VStr (d : gmap string value) (k s : string) :
  dict_get d k = VStr s -> d !! k = Some (VStr s).
Proof. unfold dict_get. destruct (d !! k); simpl; congruence. Qed.

(** X7: calls on a constructed object put one request each on the wire, in
    the order of the calls and behind what was there; whether a call
    returned or raised makes no difference, and nothing is retried.  The
    requests differ in their prompt only. *)
Theorem run_calls_one_request_each
    (transport : list Request -> exn + Response)
    (json_loads : string -> exn + json) (cfg : gmap string value)
    (calls : list (string * option (gmap string json))) (w : World) :
  __init__ cfg = inr (self w) ->
  exists u : string,
    cfg !! "server_url" = Some (VStr u) /\
    sent (run_calls transport json_loads calls w) =
      sent w ++ map (fun c => request_of_config cfg u (fst c)) calls.
Proof.
  intros Hi. destruct (init_server_url _ _ Hi) as (u & Hu & Hg & _).
  exists u. split; [by apply dict_get_VStr|].
  apply init_inr in Hi as [_ Ho].
  revert w Hu Ho. induction calls as [|[prompt schema] calls IH]; intros w Hu Ho.
  - simpl. by rewrite app_nil_r.
  - simpl. rewrite IH.
    + rewrite (generate_sent _ _ _ _ _ _ Hu), <- app_assoc. simpl.
      do 2 f_equal. rewrite Ho. reflexivity.
    + by rewrite generate_self.
    + by rewrite generate_self.
Qed.

Lemma run_calls_one_request_each_witness :
  exists u : string,
    cfg_full !! "server_url" = Some (VStr u) /\
    sent (run_calls (server 500 "oops") loads
            [("a", None); ("b", Some schema1)] (fresh obj_full)) =
      sent (fresh obj_full) ++
      map (fun c => request_of_config cfg_full u (fst c))
          [("a", None); ("b", Some schema1)].
Proof.
  apply (run_calls_one_request_each (server 500 "oops") loads cfg_full
           [("a", None); ("b", Some schema1)] (fresh obj_full)).
  reflexivity.
Defined.

Lemma generate_log (transport : list Request -> exn + Response)
    (json_loads : string -> exn + json) (w : World) (prompt : string)
    (response_schema : option (gmap string json)) :
  exists l : list LogRecord,
    log (snd (generate transport json_loads prompt response_schema w))
      = log w ++ l /\
    (length l <= 1)%nat /\ Forall is_failure_record l.
Proof.
  destruct (_server_url (self w)) as [|u] eqn:Hu.
  - rewrite generate_no_server_url by done. exists []. simpl.
    rewrite app_nil_r. repeat split; [lia|constructor].
  - rewrite (generate_run _ _ _ _ _ _ Hu). cbn zeta.
    destruct (transport _) as [e|resp].
    + exists []. simpl. rewrite app_nil_r. repeat split; [lia|constructor].
    + destruct (error_status (status_code resp)).
      * eexists [_]; simpl. repeat split; [lia|].
        constructor; [|constructor]. by repeat split.
      * exists []. simpl. rewrite app_nil_r. repeat split; [lia|constructor].
Qed.

(** X8: the log only grows, and by at most one record a call: after any
    sequence of calls the records that were there come first, unchanged,
    and what follows are error records of the provider's logger, no more of
    them than there were calls. *)
Theorem run_calls_log_append_only
    (transport : list Request -> exn + Response)
    (json_loads : string -> exn + json)
    (calls : list (string * option (gmap string json))) (w : World) :
  exists l : list LogRecord,
    log (run_calls transport json_loads calls w) = log w ++ l /\
    (length l <= length calls)%nat /\
    Forall is_failure_record l.
Proof.
  revert w. induction calls as [|[prompt schema] calls IH]; intros w.
  - exists []. simpl. rewrite app_nil_r. repeat split; [lia|constructor].
  - simpl. destruct (generate_log transport json_loads w prompt schema)
      as (l1 & H1 & Hn1 & Hf1).
    destruct (IH (snd (generate transport json_loads prompt schema w)))
      as (l2 & H2 & Hn2 & Hf2).
    exists (l1 ++ l2). rewrite H2, H1, <- app_assoc. split; [done|].
    split; [rewrite length_app; lia|]. by apply Forall_app.
Qed.

Lemma same_self_same_result (transport : list Request -> exn + Response)
    (json_loads : string -> exn + json) (w w' : World) (prompt : string)
    (response_schema : option (gmap string json)) :
  (forall (l l' : list Request) (rq : Request),
     transport (l ++ [rq]) = transport (l' ++ [rq])) ->
  self w' = self w ->
  fst (generate transport json_loads prompt response_schema w') =
  fst (generate transport json_loads prompt response_schema w).
Proof.
  intros Ht Hw. destruct (_server_url (self w)) as [|u] eqn:Hu.
  - rewrite !generate_no_server_url; [done..|]. by rewrite Hw.
  - rewrite (generate_run _ _ w _ _ _ Hu).
    rewrite (generate_run _ _ w' u) by (by rewrite Hw). cbn zeta.
    rewrite Hw, (Ht (sent w') (sent w)).
    destruct (transport _) as [e|resp]; [done|].
    by destruct (error_status (status_code resp)).
Qed.

(** X9: nothing is cached: against a server whose answer depends on the
    request alone, and not on what was sent before, a call ends the same
    way, with the same value or the same exception, after any sequence of
    earlier calls as it does at first. *)
Theorem generate_repeatable (transport : list Request -> exn + Response)
    (json_loads : string -> exn + json)
    (calls : list (string * option (gmap string json))) (w : World)
    (prompt : string) (response_schema : option (gmap string json)) :
  (forall (l l' : list Request) (rq : Request),
     transport (l ++ [rq]) = transport (l' ++ [rq])) ->
  fst (generate transport json_loads prompt response_schema
         (run_calls transport json_loads calls w)) =
  fst (generate transport json_loads prompt response_schema w).
Proof.
  intros Ht. apply same_self_same_result; [exact Ht|apply run_calls_self].
Qed.

Lemma generate_repeatable_witness :
  fst (generate (server 200 "hello") loads "hi" None
         (run_calls (server 200 "hello") loads
            [("a", None); ("b", Some schema1)] (fresh obj_full))) =
  fst (generate (server 200 "hello") loads "hi" None (fresh obj_full)).
Proof.
  apply (generate_repeatable (server 200 "hello") loads
           [("a", None); ("b", Some schema1)] (fresh obj_full) "hi" None).
  intros l l' rq. reflexivity.
Defined.

(** ** The URL *)

Lemma rstrip_only_slashes (n : nat) : rstrip "/" (slashes n) = "".
Proof. induction n as [|n IH]; [done|]. simpl slashes. by rewrite rstrip_cons, IH. Qed.

Lemma rstrip_app_slashes (u : string) (n : nat) :
  rstrip "/" (u +:+ slashes n) = rstrip "/" u.
Proof.
  induction u as [|c u IH].
  - rewrite append_nil_l. apply rstrip_only_slashes.
  - by rewrite append_cons, !rstrip_cons, IH.
Qed.

Lemma last_char_cons (c d : ascii) (s : string) :
  last_char (String c (String d s)) = last_char (String d s).
Proof. reflexivity. Qed.

Lemma last_char_append_slash (p : string) :
  last_char (p +:+ "/") = Some "/"%char.
Proof.
  induction p as [|c p IH]; [done|]. rewrite append_cons.
  destruct (p +:+ "/") as [|d q] eqn:E; [by destruct p|].
  by rewrite last_char_cons.
Qed.

Lemma rstrip_unchanged (s : string) :
  last_char s <> Some "/"%char -> rstrip "/" s = s.
Proof.
  induction s as [|c s IH]; [done|]. intros Hl. rewrite rstrip_cons.
  destruct s as [|d s].
  - simpl. destruct (Ascii.eqb_spec c "/") as [->|Hc]; [|done].
    by destruct Hl.
  - rewrite last_char_cons in Hl. by rewrite (IH Hl).
Qed.

(** X10: trailing slashes of [server_url] make no difference: objects whose
    [server_url]s differ by a run of slashes at the end send their requests
    to the same URL. *)
Theorem generate_url_ignores_trailing_slashes
    (transport : list Request -> exn + Response)
    (json_loads : string -> exn + json) (cfg1 cfg2 : gmap string value)
    (w1 w2 : World) (u : string) (n : nat) (prompt : string)
    (response_schema : option (gmap string json)) :
  __init__ cfg1 = inr (self w1) ->
  __init__ cfg2 = inr (self w2) ->
  cfg1 !! "server_url" = Some (VStr u) ->
  cfg2 !! "server_url" = Some (VStr (u +:+ slashes n)) ->
  exists rq1 rq2 : Request,
    sent (snd (generate transport json_loads prompt response_schema w1))
      = sent w1 ++ [rq1] /\
    sent (snd (generate transport json_loads prompt response_schema w2))
      = sent w2 ++ [rq2] /\
    rq_url rq1 = rq_url rq2.
Proof.
  intros H1 H2 Hu1 Hu2.
  destruct (generate_request transport json_loads _ _ prompt response_schema H1)
    as (u1 & Hg1 & Hs1).
  destruct (generate_request transport json_loads _ _ prompt response_schema H2)
    as (u2 & Hg2 & Hs2).
  rewrite (dict_get_Some _ _ _ Hu1) in Hg1. injection Hg1 as <-.
  rewrite (dict_get_Some _ _ _ Hu2) in Hg2. injection Hg2 as <-.
  eexists _, _. split; [exact Hs1|]. split; [exact Hs2|]. simpl.
  by rewrite rstrip_app_slashes.
Qed.

Lemma generate_url_ignores_trailing_slashes_witness :
  exists rq1 rq2 : Request,
    sent (snd (generate (server 200 "hello") loads "hi" None (fresh obj_min)))
      = sent (fresh obj_min) ++ [rq1] /\
    sent (snd (generate (server 200 "hello") loads "hi" None
                 (fresh obj_slashed)))
      = sent (fresh obj_slashed) ++ [rq2] /\
    rq_url rq1 = rq_url rq2.
Proof.
  apply (generate_url_ignores_trailing_slashes (server 200 "hello") loads
           cfg_min cfg_slashed (fresh obj_min) (fresh obj_slashed)
           "http://localhost:1234" 3 "hi" None); reflexivity.
Defined.

(** X11: a [server_url] that does not end with a slash is used as it is:
    the URL is [server_url] followed by [/generate]. *)
Theorem generate_url_without_trailing_slash
    (transport : list Request -> exn + Response)
    (json_loads : string -> exn + json) (cfg : gmap string value) (w : World)
    (u prompt : string) (response_schema : option (gmap string json)) :
  __init__ cfg = inr (self w) ->
  cfg !! "server_url" = Some (VStr u) ->
  last_char u <> Some "/"%char ->
  exists rq : Request,
    sent (snd (generate transport json_loads prompt response_schema w))
      = sent w ++ [rq] /\
    rq_url rq = u +:+ "/generate".
Proof.
  intros Hi Hu Hl.
  destruct (generate_request transport json_loads _ _ prompt response_schema Hi)
    as (u' & Hg & Hs).
  rewrite (dict_get_Some _ _ _ Hu) in Hg. injection Hg as <-.
  eexists. split; [exact Hs|]. simpl. by rewrite (rstrip_unchanged _ Hl).
Qed.

Lemma generate_url_without_trailing_slash_witness :
  exists rq : Request,
    sent (snd (generate (server 200 "hello") loads "hi" None (fresh obj_min)))
      = sent (fresh obj_min) ++ [rq] /\
    rq_url rq = "http://localhost:1234" +:+ "/generate".
Proof.
  apply (generate_url_without_trailing_slash (server 200 "hello") loads
           cfg_min (fresh obj_min) "http://localhost:1234" "hi" None);
    [reflexivity|reflexivity|by vm_compute].
Defined.

(** X12: a [server_url] made of slashes only passes the constructor, which
    tests for the empty string before the slashes are stripped; every
    request of the object then goes to the URL [/generate], which names no
    host. *)
Theorem generate_slash_only_server_url
    (transport : list Request -> exn + Response)
    (json_loads : string -> exn + json) (cfg : gmap string value) (n : nat) :
  cfg !! "server_url" = Some (VStr (slashes (S n))) ->
  exists o : t,
    __init__ cfg = inr o /\
    forall (prompt : string) (response_schema : option (gmap string json))
           (rqs : list Request) (recs : list LogRecord),
    exists rq : Request,
      sent (snd (generate transport json_loads prompt response_schema
                   (mkWorld o rqs recs)))
        = rqs ++ [rq] /\
      rq_url rq = "/generate".
Proof.
  intros Hu.
  assert (exists o, __init__ cfg = inr o) as [o Hi].
  { unfold __init__, super_init. rewrite (dict_get_Some _ _ _ Hu). simpl. eauto. }
  exists o. split; [done|]. intros prompt response_schema rqs recs.
  destruct (generate_request transport json_loads cfg (mkWorld o rqs recs)
              prompt response_schema Hi) as (u' & Hg & Hs).
  rewrite (dict_get_Some _ _ _ Hu) in Hg. injection Hg as <-.
  eexists. split; [exact Hs|]. cbn [rq_url].
  change (String "/" (slashes n)) with (slashes (S n)).
  by rewrite rstrip_only_slashes.
Qed.

Lemma generate_slash_only_server_url_witness :
  exists o : t,
    __init__ cfg_root = inr o /\
    forall (prompt : string) (response_schema : option (gmap string json))
           (rqs : list Request) (recs : list LogRecord),
    exists rq : Request,
      sent (snd (generate (server 200 "hello") loads prompt response_schema
                   (mkWorld o rqs recs)))
        = rqs ++ [rq] /\
      rq_url rq = "/generate".
Proof.
  apply (generate_slash_only_server_url (server 200 "hello") loads cfg_root 1).
  reflexivity.
Defined.

(** ** What the request holds, and nothing more *)

Lemma headers_for_other (api_key : value) (k : string) :
  k <> "Content-Type" -> k <> "Authorization" ->
  headers_for api_key !! k = None.
Proof.
  intros H1 H2. unfold headers_for. destruct (truthy api_key).
  - rewrite lookup_insert_ne by done. by rewrite lookup_singleton_ne.
  - by rewrite lookup_singleton_ne.
Qed.

Lemma payload_for_other (model : value) (prompt k : string) :
  k <> "prompt" -> k <> "model" -> payload_for model prompt !! k = None.
Proof.
  intros H1 H2. unfold payload_for. destruct (truthy model).
  - rewrite lookup_insert_ne by done. by rewrite lookup_singleton_ne.
  - by rewrite lookup_singleton_ne.
Qed.

(** X13: the request of a call has a timeout of 60, no header other than
    [Content-Type] and [Authorization] and no body field other than
    [prompt] and [model]; so neither the API key nor any other key of the
    configuration is put in the body. *)
Theorem generate_request_shape (transport : list Request -> exn + Response)
    (json_loads : string -> exn + json) (cfg : gmap string value) (w : World)
    (prompt : string) (response_schema : option (gmap string json)) :
  __init__ cfg = inr (self w) ->
  exists rq : Request,
    sent (snd (generate transport json_loads prompt response_schema w))
      = sent w ++ [rq] /\
    rq_timeout rq = 60 /\
    (forall k : string,
       k <> "Content-Type" -> k <> "Authorization" ->
       rq_headers rq !! k = None) /\
    (forall k : string,
       k <> "prompt" -> k <> "model" -> rq_json rq !! k = None).
Proof.
  intros Hi.
  destruct (generate_request transport json_loads _ _ prompt response_schema Hi)
    as (u & _ & Hs).
  eexists. split; [exact Hs|]. simpl. split; [done|]. split.
  - intros k. apply headers_for_other.
  - intros k. apply payload_for_other.
Qed.

Lemma generate_request_shape_witness :
  exists rq : Request,
    sent (snd (generate (server 200 "hello") loads "hi" None (fresh obj_full)))
      = [rq] /\
    rq_timeout rq = 60 /\
    rq_headers rq !! "api_key" = None /\
    rq_json rq !! "api_key" = None.
Proof.
  destruct (generate_request_shape (server 200 "hello") loads cfg_full
              (fresh obj_full) "hi" None) as (rq & Hs & Ht & Hh & Hj);
    [reflexivity|].
  exists rq. split; [exact Hs|]. split; [exact Ht|]. split.
  - apply Hh; discriminate.
  - apply Hj; discriminate.
Defined.
